(** * ESP32 FreeRTOS demo 17: deferred interrupt through a binary semaphore

    A shallow embedding of [src/main.cpp]: the timer ISR [onTimer], the
    consumer task [printValues], the bring-up function [setup] and the idle
    [loop], written in a small state monad over a [world] that holds the
    program's globals, the collaborators' state (GPIO levels, ADC input, the
    semaphore object, the created tasks, the alarm) and a chronological log
    of every call and every access to the volatile sample slot.

    Floating point follows IEEE 754 through [SpecFloat]: [float] is binary32,
    [double] is binary64, both rounded to nearest even. *)

From Stdlib Require Import ZArith List String Ascii Bool Lia.
From Stdlib Require Import QArith Qabs.
From Stdlib Require Import SpecFloat DecimalString.
Import ListNotations.
Open Scope Z_scope.

(* ===================================================================== *)
(** ** Machine integers *)

Definition to_uint8 (z : Z) : Z := z mod 256.
Definition to_uint16 (z : Z) : Z := z mod 65536.

(** C's logical negation on [int]. *)
Definition lnot (x : Z) : Z := if x =? 0 then 1 else 0.

Definition pdFALSE : bool := false.
Definition pdTRUE : bool := true.

(* ===================================================================== *)
(** ** IEEE 754 arithmetic of the conversion *)

Module IEEE.

Definition float := spec_float.   (* binary32 *)
Definition double := spec_float.  (* binary64 *)

Definition f32_prec : Z := 24.
Definition f32_emax : Z := 128.
Definition f64_prec : Z := 53.
Definition f64_emax : Z := 1024.

(** Integer to floating conversions. *)
Definition f32_of_Z (z : Z) : float := binary_normalize f32_prec f32_emax z 0 false.
Definition f64_of_Z (z : Z) : double := binary_normalize f64_prec f64_emax z 0 false.

(** The promotion [float -> double] is exact; it only renormalises the
    mantissa to 53 bits. *)
Definition f64_of_f32 (x : float) : double :=
  match x with
  | S754_finite s m e => binary_round f64_prec f64_emax s m e
  | _ => x
  end.

(** The narrowing [double -> float] rounds to nearest even. *)
Definition f32_of_f64 (x : double) : float :=
  match x with
  | S754_finite s m e => binary_round f32_prec f32_emax s m e
  | _ => x
  end.

Definition f64_add : double -> double -> double := SFadd f64_prec f64_emax.
Definition f64_sub : double -> double -> double := SFsub f64_prec f64_emax.
Definition f64_mul : double -> double -> double := SFmul f64_prec f64_emax.
Definition f64_div : double -> double -> double := SFdiv f64_prec f64_emax.
Definition f64_ltb : double -> double -> bool := SFltb.

(** Conversion of a floating value to an integer type: truncation toward
    zero. *)
Definition trunc (x : spec_float) : Z :=
  match x with
  | S754_finite s m e =>
      cond_Zopp s (match e with
                   | Zneg p => Z.shiftr (Zpos m) (Zpos p)
                   | _ => Z.shiftl (Zpos m) e
                   end)
  | _ => 0
  end.

(** The rational a finite float denotes. *)
Definition to_Q (x : spec_float) : Q :=
  match x with
  | S754_finite s m e => inject_Z (cond_Zopp s (Zpos m)) * (2 ^ e)%Q
  | _ => 0%Q
  end.

(** The literals of line 79: [3.3] and [4096.0], both of type [double].
    [3.3] is the double nearest to 33/10. *)
Definition lit_3_3 : double := S754_finite false 7430939385161318 (-51).
Definition lit_4096_0 : double := f64_of_Z 4096.

End IEEE.
Import IEEE.

(* ===================================================================== *)
(** ** Text output of a floating value *)

Definition string_of_Z (z : Z) : string := NilZero.string_of_int (Z.to_int z).

(** Modelled from the spec: the printing of a floating value belongs to
    the Arduino core ([Print::println(double, int)]) and is absent from
    src/.  The spec asks for the value as text with a fixed decimal
    precision, rounded.  [rounding_of], [frac_digits] and [printFloat]
    follow the core's routine: refuse NaN, infinities and magnitudes above
    4294967040, print the sign, add [0.5 / 10^digits], print the integer
    part, a point, and then [digits] digits extracted one at a time from the
    remainder by multiplying by ten and truncating.

    [rounding_of digits 0.5] is the half unit of the last printed digit. *)
Fixpoint rounding_of (digits : nat) (rounding : double) : double :=
  match digits with
  | O => rounding
  | S d => rounding_of d (f64_div rounding (f64_of_Z 10))
  end.

(** Modelled from the spec: the [digits] fraction digits of the core's
    printing routine, absent from src/. *)
Fixpoint frac_digits (digits : nat) (remainder : double) : string :=
  match digits with
  | O => EmptyString
  | S d =>
      let remainder := f64_mul remainder (f64_of_Z 10) in
      let toPrint := trunc remainder in
      let remainder := f64_sub remainder (f64_of_Z toPrint) in
      (string_of_Z toPrint ++ frac_digits d remainder)%string
  end.

(** Modelled from the spec: the core's routine for a value as text with
    [digits] fraction digits, absent from src/. *)
Definition printFloat (number : double) (digits : nat) : string :=
  match number with
  | S754_nan => "nan"%string
  | S754_infinity _ => "inf"%string
  | _ =>
      if f64_ltb (f64_of_Z 4294967040) number then "ovf"%string
      else if f64_ltb number (f64_of_Z (-4294967040)) then "ovf"%string
      else
        let neg := f64_ltb number (S754_zero false) in
        let number := if neg then SFopp number else number in
        let rounding := rounding_of digits (f64_div (f64_of_Z 1) (f64_of_Z 2)) in
        let number := f64_add number rounding in
        let int_part := trunc number in
        let remainder := f64_sub number (f64_of_Z int_part) in
        ((if neg then "-" else "") ++ string_of_Z int_part ++
         (match digits with O => "" | S _ => "." end) ++
         frac_digits digits remainder)%string
  end.

(* ===================================================================== *)
(** ** The world: globals, collaborators, log *)

Inductive pin_mode := INPUT | OUTPUT.

(** Function pointers handed to the kernel and to the timer driver. *)
Inductive task_fn := Fn_printValues.
Inductive isr_fn := Fn_onTimer.

(** A task as [xTaskCreatePinnedToCore] receives it. [None] is [NULL]. *)
Record task := mkTask {
  t_entry : task_fn;
  t_name : string;
  t_stack : Z;
  t_parameters : option Z;
  t_priority : Z;
  t_handle_out : option Z;
  t_core : Z
}.

(** Modelled from the spec: the FreeRTOS binary semaphore is absent from
    src/.  It is a two-state gate (signaled or not) together with the note
    that a task is blocked on it; only one task ever waits. *)
Record semaphore := mkSem {
  signaled : bool;
  waiting : bool
}.

Inductive event :=
| ESerial_begin (baud : Z)
| EvTaskDelay (ticks : Z)
| ESerial_println (text : string)
| ExSemaphoreCreateBinary (created : bool)
| EESP_restart
| ExTaskCreatePinnedToCore (t : task)
| EpinMode (pin : Z) (mode : pin_mode)
| EtimerBegin (num divider : Z) (countUp : bool)
| EtimerAttachInterrupt (t : Z) (fn : isr_fn) (edge : bool)
| EtimerAlarmWrite (t : Z) (alarm_value : Z) (autoreload : bool)
| EtimerAlarmEnable (t : Z)
| EdigitalRead (pin : Z) (level : Z)
| EdigitalWrite (pin : Z) (level : Z)
| EanalogRead (pin : Z) (raw : Z)
| Estore_val (v : Z)
| Eload_val (v : Z)
| ExSemaphoreGiveFromISR (task_woken : bool)
| EportYIELD_FROM_ISR
| ExSemaphoreTake (xTicksToWait : Z).

Record world := mkWorld {
  (* globals of main.cpp *)
  timer : option Z;             (* static hw_timer_t *timer = NULL *)
  val : Z;                      (* static volatile uint16_t val *)
  bin_sem : option semaphore;   (* static SemaphoreHandle_t bin_sem = NULL,
                                   with the object it points to *)
  (* collaborators *)
  gpio : Z -> bool;             (* level of every digital pin *)
  adc : Z -> Z;                 (* conversion result ready on every channel *)
  heap_ok : bool;               (* can the kernel allocate a semaphore? *)
  tasks : list task;            (* tasks created so far *)
  alarm_on : bool;              (* is the periodic alarm armed? *)
  log : list event              (* calls and volatile accesses, oldest first *)
}.

Definition set_timer (t : option Z) (w : world) : world :=
  mkWorld t (val w) (bin_sem w) (gpio w) (adc w) (heap_ok w) (tasks w) (alarm_on w) (log w).
Definition set_val (v : Z) (w : world) : world :=
  mkWorld (timer w) v (bin_sem w) (gpio w) (adc w) (heap_ok w) (tasks w) (alarm_on w) (log w).
Definition set_bin_sem (s : option semaphore) (w : world) : world :=
  mkWorld (timer w) (val w) s (gpio w) (adc w) (heap_ok w) (tasks w) (alarm_on w) (log w).
Definition set_gpio (g : Z -> bool) (w : world) : world :=
  mkWorld (timer w) (val w) (bin_sem w) g (adc w) (heap_ok w) (tasks w) (alarm_on w) (log w).
Definition set_adc (a : Z -> Z) (w : world) : world :=
  mkWorld (timer w) (val w) (bin_sem w) (gpio w) a (heap_ok w) (tasks w) (alarm_on w) (log w).
Definition set_tasks (ts : list task) (w : world) : world :=
  mkWorld (timer w) (val w) (bin_sem w) (gpio w) (adc w) (heap_ok w) ts (alarm_on w) (log w).
Definition set_alarm_on (b : bool) (w : world) : world :=
  mkWorld (timer w) (val w) (bin_sem w) (gpio w) (adc w) (heap_ok w) (tasks w) b (log w).
Definition record (e : event) (w : world) : world :=
  mkWorld (timer w) (val w) (bin_sem w) (gpio w) (adc w) (heap_ok w) (tasks w) (alarm_on w)
          (log w ++ [e]).

(* ===================================================================== *)
(** ** The monad of the code *)

(** How a piece of code can end. *)
Inductive outcome (A : Type) : Type :=
| Returned (a : A) (w : world)   (* ran to its end *)
| Blocked (w : world)            (* the task is suspended inside a kernel call *)
| Restarted (w : world)          (* the device was restarted *)
| Faulted (w : world)            (* a NULL handle reached the kernel *)
| OutOfFuel (w : world).         (* still inside a loop when the fuel ran out *)
Arguments Returned {A} a w.
Arguments Blocked {A} w.
Arguments Restarted {A} w.
Arguments Faulted {A} w.
Arguments OutOfFuel {A} w.

Definition M (A : Type) : Type := world -> outcome A.

Definition ret {A} (a : A) : M A := fun w => Returned a w.

Definition bind {A B} (m : M A) (k : A -> M B) : M B := fun w =>
  match m w with
  | Returned a w' => k a w'
  | Blocked w' => Blocked w'
  | Restarted w' => Restarted w'
  | Faulted w' => Faulted w'
  | OutOfFuel w' => OutOfFuel w'
  end.

Declare Scope code_scope.
Delimit Scope code_scope with code.
Notation "x <- c ;; k" := (bind c (fun x => k))
  (at level 61, c at next level, right associativity) : code_scope.
Notation "c ;; k" := (bind c (fun _ => k))
  (at level 61, right associativity) : code_scope.
Open Scope code_scope.

(** [while (1) { body }], unrolled at most [fuel] times. *)
Fixpoint while_1 (fuel : nat) (body : M unit) : M unit := fun w =>
  match fuel with
  | O => OutOfFuel w
  | S n =>
      match body w with
      | Returned _ w' => while_1 n body w'
      | other => other
      end
  end.

(** The final world of an outcome, whatever its kind. *)
Definition world_of {A} (o : outcome A) : world :=
  match o with
  | Returned _ w | Blocked w | Restarted w | Faulted w | OutOfFuel w => w
  end.

(* ===================================================================== *)
(** ** Collaborators: Arduino core, timer driver, FreeRTOS *)

(** Modelled from the spec: the pin numbers come from the ESP-IDF headers,
    absent from src/; the comments of main.cpp name the LED pin and ADC
    channel 34. *)
Definition GPIO_NUM_23 : Z := 23.
Definition GPIO_NUM_34 : Z := 34.

(** Modelled from the spec: the designated core; [soc.h] is absent from
    src/ and the header comment of main.cpp quotes its value. *)
Definition APP_CPU_NUM : Z := 1.

(** Modelled from the spec: the unbounded wait of FreeRTOS, the largest
    32-bit tick count; the header is absent from src/. *)
Definition portMAX_DELAY : Z := 4294967295.

(** Modelled from the spec: the tick rate of the FreeRTOS configuration,
    absent from src/; the spec only asks for a brief pause. *)
Definition configTICK_RATE_HZ : Z := 1000.
Definition pdMS_TO_TICKS (ms : Z) : Z := ms * configTICK_RATE_HZ / 1000.

(** Modelled from the spec: the priority of the task that runs [setup] and
    [loop]; the Arduino core that creates it is absent from src/ and the
    comment above [setup] (line 85) gives the value. *)
Definition setup_task_priority : Z := 1.

(** Modelled from the spec: the output transport, the pause, the pin
    configuration and the timer driver are opaque services, absent from
    src/; each call is logged with its arguments. *)
Definition Serial_begin (baud : Z) : M unit := fun w =>
  Returned tt (record (ESerial_begin baud) w).

Definition vTaskDelay (ticks : Z) : M unit := fun w =>
  Returned tt (record (EvTaskDelay ticks) w).

Definition Serial_println (text : string) : M unit := fun w =>
  Returned tt (record (ESerial_println text) w).

(** [Serial.println(float, int)]: the value is promoted to [double]. *)
Definition Serial_println_float (x : float) (digits : nat) : M unit :=
  Serial_println (printFloat (f64_of_f32 x) digits).

(** Modelled from the spec: creation yields a valid, unsignaled semaphore
    with no waiter, or an invalid handle when the kernel cannot allocate. *)
Definition xSemaphoreCreateBinary : M (option semaphore) := fun w =>
  let h := if heap_ok w then Some (mkSem false false) else None in
  Returned h (record (ExSemaphoreCreateBinary (heap_ok w)) w).

(** Modelled from the spec: [restart_device()] is the irrecoverable escape
    hatch; control never comes back to the caller. *)
Definition ESP_restart : M unit := fun w =>
  Restarted (record EESP_restart w).

(** Modelled from the spec: [create_task] schedules a new unit of work; its
    failure is out of scope, so the task always comes to exist. *)
Definition xTaskCreatePinnedToCore
    (pvTaskCode : task_fn) (pcName : string) (usStackDepth : Z)
    (pvParameters : option Z) (uxPriority : Z) (pvCreatedTask : option Z)
    (xCoreID : Z) : M unit := fun w =>
  let t := mkTask pvTaskCode pcName usStackDepth pvParameters uxPriority
                  pvCreatedTask xCoreID in
  Returned tt (record (ExTaskCreatePinnedToCore t) (set_tasks (tasks w ++ [t]) w)).

Definition pinMode (pin : Z) (mode : pin_mode) : M unit := fun w =>
  Returned tt (record (EpinMode pin mode) w).

(** The ESP32 has four hardware timers; any other number yields NULL. *)
Definition timerBegin (num divider : Z) (countUp : bool) : M (option Z) := fun w =>
  let t := if (0 <=? num) && (num <=? 3) then Some num else None in
  Returned t (record (EtimerBegin num divider countUp) w).

Definition timerAttachInterrupt (t : option Z) (fn : isr_fn) (edge : bool) : M unit := fun w =>
  match t with
  | Some n => Returned tt (record (EtimerAttachInterrupt n fn edge) w)
  | None => Faulted w
  end.

Definition timerAlarmWrite (t : option Z) (alarm_value : Z) (autoreload : bool) : M unit := fun w =>
  match t with
  | Some n => Returned tt (record (EtimerAlarmWrite n alarm_value autoreload) w)
  | None => Faulted w
  end.

Definition timerAlarmEnable (t : option Z) : M unit := fun w =>
  match t with
  | Some n => Returned tt (record (EtimerAlarmEnable n) (set_alarm_on true w))
  | None => Faulted w
  end.

(** Modelled from the spec: the indicator output is the pin's last-written
    level, read back before toggling; the GPIO driver is absent from src/.
    A write of a nonzero [uint8_t] drives the pin high. *)
Definition digitalRead (pin : Z) : M Z := fun w =>
  let level := if gpio w pin then 1 else 0 in
  Returned level (record (EdigitalRead pin level) w).

Definition digitalWrite (pin : Z) (v : Z) : M unit := fun w =>
  let high := negb (to_uint8 v =? 0) in
  Returned tt (record (EdigitalWrite pin v)
                 (set_gpio (fun p => if p =? pin then high else gpio w p) w)).

(** Modelled from the spec: one synchronous sample of the channel, whatever
    the converter has ready; the ADC driver is absent from src/. *)
Definition analogRead (pin : Z) : M Z := fun w =>
  Returned (adc w pin) (record (EanalogRead pin (adc w pin)) w).

(** Accesses to the volatile sample slot.  The store converts to
    [uint16_t]. *)
Definition store_val (v : Z) : M unit := fun w =>
  Returned tt (record (Estore_val (to_uint16 v)) (set_val (to_uint16 v) w)).

Definition load_val : M Z := fun w =>
  Returned (val w) (record (Eload_val (val w)) w).

Definition load_timer : M (option Z) := fun w => Returned (timer w) w.
Definition store_timer (t : option Z) : M unit := fun w => Returned tt (set_timer t w).
Definition store_bin_sem (h : option semaphore) : M unit := fun w =>
  Returned tt (set_bin_sem h w).
Definition bin_sem_is_NULL : M bool := fun w =>
  Returned (match bin_sem w with None => true | Some _ => false end) w.

(** Modelled from the spec: give sets the semaphore signaled and releases
    at most one waiter; on an already signaled semaphore it changes nothing.
    The flag is raised when the give made a blocked task runnable and is
    left as it was otherwise.  The call acts on the global [bin_sem]. *)
Definition xSemaphoreGiveFromISR (pxHigherPriorityTaskWoken : bool) : M bool := fun w =>
  match bin_sem w with
  | None => Faulted w
  | Some s =>
      if signaled s then
        Returned pxHigherPriorityTaskWoken
                 (record (ExSemaphoreGiveFromISR pxHigherPriorityTaskWoken) w)
      else
        let woken := waiting s || pxHigherPriorityTaskWoken in
        Returned woken
                 (record (ExSemaphoreGiveFromISR woken)
                    (set_bin_sem (Some (mkSem true false)) w))
  end.

(** Modelled from the spec: the request for a rescheduling check on exit
    from interrupt context; only the request is logged. *)
Definition portYIELD_FROM_ISR : M unit := fun w =>
  Returned tt (record EportYIELD_FROM_ISR w).

(** Modelled from the spec: take blocks until the semaphore is signaled,
    then clears it.  With [portMAX_DELAY] the wait has no bound: on an
    unsignaled semaphore the caller is left [Blocked], noted as the waiter,
    and the call is made again when the task runs next.  With a finite wait
    the call gives up and returns [pdFALSE].  The call is logged when it
    returns.  It acts on the global [bin_sem]. *)
Definition xSemaphoreTake (xTicksToWait : Z) : M bool := fun w =>
  match bin_sem w with
  | None => Faulted w
  | Some s =>
      if signaled s then
        Returned pdTRUE
                 (record (ExSemaphoreTake xTicksToWait)
                    (set_bin_sem (Some (mkSem false false)) w))
      else if xTicksToWait =? portMAX_DELAY then
        Blocked (set_bin_sem (Some (mkSem false true)) w)
      else
        Returned pdFALSE (record (ExSemaphoreTake xTicksToWait) w)
  end.

(* ===================================================================== *)
(** ** main.cpp *)

Definition pinLed : Z := GPIO_NUM_23.
Definition pinAdc : Z := GPIO_NUM_34.
Definition timer_divider : Z := 80.
Definition timer_max_count : Z := 100000.
Definition task_delay : Z := pdMS_TO_TICKS 2000.

(** Lines 44-66. *)
Definition onTimer : M unit :=
  let task_woken := pdFALSE in
  pin_state <- digitalRead pinLed ;;
  digitalWrite pinLed (lnot pin_state) ;;
  v <- analogRead pinAdc ;;
  store_val v ;;
  task_woken <- xSemaphoreGiveFromISR task_woken ;;
  if task_woken then portYIELD_FROM_ISR else ret tt.

(** Line 79: [volt = (float) val * 3.3 / 4096.0].  The product and the
    quotient are taken in [double]; the assignment narrows to [float]. *)
Definition volt_of (v : Z) : float :=
  f32_of_f64 (f64_div (f64_mul (f64_of_f32 (f32_of_Z v)) lit_3_3) lit_4096_0).

(** Lines 78-80, the body of the loop. *)
Definition printValues_body : M unit :=
  xSemaphoreTake portMAX_DELAY ;;
  v <- load_val ;;
  let volt := volt_of v in
  Serial_println_float volt 3.

(** Lines 72-82. *)
Definition printValues (parameters : option Z) (fuel : nat) : M unit :=
  while_1 fuel printValues_body.

(** Lines 88-135. *)
Definition setup : M unit :=
  Serial_begin 115200 ;;
  vTaskDelay (pdMS_TO_TICKS 1000) ;;
  Serial_println "" ;;
  Serial_println "FreeRTOS Software timer: demo 3 - interrupt differito con semaforo" ;;
  h <- xSemaphoreCreateBinary ;;
  store_bin_sem h ;;
  is_null <- bin_sem_is_NULL ;;
  (if is_null then
     Serial_println "ERRORE: impossibile creare il semaforo" ;;
     ESP_restart
   else ret tt) ;;
  xTaskCreatePinnedToCore Fn_printValues "Print values" 1024 None 2 None APP_CPU_NUM ;;
  pinMode pinLed OUTPUT ;;
  t <- timerBegin 0 timer_divider true ;;
  store_timer t ;;
  t <- load_timer ;;
  timerAttachInterrupt t Fn_onTimer true ;;
  t <- load_timer ;;
  timerAlarmWrite t timer_max_count true ;;
  t <- load_timer ;;
  timerAlarmEnable t.

(** Lines 137-140. *)
Definition loop : M unit := ret tt.

(** One expiry of the alarm: the converter has [sample] ready on the
    monitored channel and the handler runs to completion. *)
Definition fire (sample : Z) : M unit := fun w =>
  onTimer (set_adc (fun p => if p =? pinAdc then sample else adc w p) w).

(** The line the consumer prints for a raw sample. *)
Definition line_of (raw : Z) : string := printFloat (f64_of_f32 (volt_of raw)) 3.

(* ===================================================================== *)
(** ** Predicates on logs *)

Definition banner : string :=
  "FreeRTOS Software timer: demo 3 - interrupt differito con semaforo".
Definition diagnostic : string := "ERRORE: impossibile creare il semaforo".

Definition is_restart (e : event) : bool :=
  match e with EESP_restart => true | _ => false end.

Definition is_diagnostic (e : event) : bool :=
  match e with ESerial_println text => String.eqb text diagnostic | _ => false end.

Definition is_println (e : event) : bool :=
  match e with ESerial_println _ => true | _ => false end.

(** The bring-up steps that follow the creation of the semaphore. *)
Definition is_later_step (e : event) : bool :=
  match e with
  | ExTaskCreatePinnedToCore _ | EpinMode _ _ | EtimerBegin _ _ _
  | EtimerAttachInterrupt _ _ _ | EtimerAlarmWrite _ _ _ | EtimerAlarmEnable _ => true
  | _ => false
  end.

(** Scans a log and accepts it when every arming of the alarm comes after a
    successful creation of the semaphore and after the creation of a task. *)
Fixpoint armed_after (sem_exists task_exists : bool) (evs : list event) : bool :=
  match evs with
  | [] => true
  | ExSemaphoreCreateBinary ok :: rest => armed_after ok task_exists rest
  | ExTaskCreatePinnedToCore _ :: rest => armed_after sem_exists true rest
  | EtimerAlarmEnable _ :: rest => sem_exists && task_exists && armed_after sem_exists task_exists rest
  | _ :: rest => armed_after sem_exists task_exists rest
  end.

(** The task [setup] creates. *)
Definition consumer_task : task :=
  mkTask Fn_printValues "Print values" 1024 None 2 None APP_CPU_NUM.

(** What [setup] logs when the semaphore is created, and when it is not. *)
Definition bring_up_log : list event :=
  [ ESerial_begin 115200;
    EvTaskDelay (pdMS_TO_TICKS 1000);
    ESerial_println "";
    ESerial_println banner;
    ExSemaphoreCreateBinary true;
    ExTaskCreatePinnedToCore consumer_task;
    EpinMode pinLed OUTPUT;
    EtimerBegin 0 timer_divider true;
    EtimerAttachInterrupt 0 Fn_onTimer true;
    EtimerAlarmWrite 0 timer_max_count true;
    EtimerAlarmEnable 0 ].

Definition fatal_log : list event :=
  [ ESerial_begin 115200;
    EvTaskDelay (pdMS_TO_TICKS 1000);
    ESerial_println "";
    ESerial_println banner;
    ExSemaphoreCreateBinary false;
    ESerial_println diagnostic;
    EESP_restart ].

(** Successive expiries of the alarm with no consumer step in between. *)
Fixpoint fires (samples : list Z) : M unit :=
  match samples with
  | [] => ret tt
  | s :: rest => fire s ;; fires rest
  end.

(** Enumeration of the integers whose binary writing is [base] followed by
    [k] more bits. *)
Fixpoint forall_bits (k : nat) (base : Z) (p : Z -> bool) : bool :=
  match k with
  | O => p base
  | S k' => forall_bits k' (2 * base) p && forall_bits k' (2 * base + 1) p
  end.

(** A decimal digit, and a text made of digits, a point and exactly three
    digits. *)
Definition is_digit (c : ascii) : bool :=
  let n := Z.of_N (N_of_ascii c) in (48 <=? n) && (n <=? 57).

Fixpoint three_fraction_digits (s : string) : bool :=
  match s with
  | String "." (String a (String b (String c EmptyString))) =>
      is_digit a && is_digit b && is_digit c
  | String d rest => is_digit d && three_fraction_digits rest
  | EmptyString => false
  end.

(** The binary32 float nearest to the exact quotient [raw * 33 / 40960],
    that is to [raw * 3.3 / 4096] over the rationals. *)
Definition nearest_f32 (raw : Z) : float :=
  SFdiv f32_prec f32_emax (f32_of_Z (raw * 33)) (f32_of_Z 40960).

(** The exact value [raw * 3.3 / 4096]. *)
Definition exact_volt (raw : Z) : Q := (inject_Z raw * (33 # 10) / 4096)%Q.

(** A rational rounded half up to three decimals, as text. *)
Definition round3 (q : Q) : Z :=
  let r := (q * 1000 + (1 # 2))%Q in Qnum r / Zpos (Qden r).

Definition decimal3 (q : Q) : string :=
  let n := round3 q in
  (string_of_Z (n / 1000) ++ "." ++ string_of_Z (n / 100 mod 10) ++
   string_of_Z (n / 10 mod 10) ++ string_of_Z (n mod 10))%string.

Definition same_float (x y : spec_float) : bool :=
  match x, y with
  | S754_zero a, S754_zero b => Bool.eqb a b
  | S754_finite a m e, S754_finite b n f => Bool.eqb a b && Pos.eqb m n && Z.eqb e f
  | _, _ => false
  end.

(** What is checked of the float [v] and of the line printed for a raw
    sample: [v] is the nearest float to the exact value and within a
    relative 2^-24 of it; the line has three fraction digits and is [v]
    rounded to three decimals. *)
Definition sample_checks (raw : Z) (v : float) (line : string) : bool :=
  same_float v (nearest_f32 raw) &&
  Qle_bool (Qabs (to_Q v - exact_volt raw)) (exact_volt raw * (1 # 16777216)) &&
  three_fraction_digits line &&
  String.eqb line (decimal3 (to_Q v)).

(** What is checked against the full scale: [v] is below 3.3 and below
    the float computed for 4096, and the line is not 3.300. *)
Definition below_checks (v : float) (line : string) : bool :=
  negb (Qle_bool (33 # 10) (to_Q v)) &&
  SFltb v (volt_of 4096) &&
  negb (String.eqb line "3.300").

Definition sample_ok (raw : Z) : bool :=
  sample_checks raw (volt_of raw) (line_of raw).

Definition below_full_scale (raw : Z) : bool :=
  below_checks (volt_of raw) (line_of raw).

(** Both families of checks in one pass over a reading. *)
Definition reading_ok (raw : Z) : bool :=
  let v := volt_of raw in
  let line := printFloat (f64_of_f32 v) 3 in
  sample_checks raw v line && below_checks v line.

(** Rounds of the steady state: the alarm expires with a sample ready, the
    handler runs, and the consumer then runs until it blocks again. *)
Fixpoint serve (samples : list Z) (w : world) : outcome unit :=
  match samples with
  | [] => Blocked w
  | sample :: rest =>
      match fire sample w with
      | Returned _ w1 =>
          match printValues None 2 w1 with
          | Blocked w2 => serve rest w2
          | other => other
          end
      | other => other
      end
  end.

(** The world at power-up, with a kernel that can allocate or not, and the
    world once bring-up is over. *)
Definition boot (heap : bool) : world :=
  mkWorld None 0 None (fun _ => false) (fun _ => 0) heap [] false [].

Definition ready : world :=
  mkWorld (Some 0) 0 (Some (mkSem false false)) (fun _ => false) (fun _ => 0)
          true [consumer_task] true bring_up_log.

(** The worlds a run can be in once bring-up has completed: the handler
    fires, the consumer makes a pass of its loop or blocks. *)
Inductive reachable : world -> Prop :=
| reach_setup (w w' : world) :
    setup w = Returned tt w' -> reachable w'
| reach_fire (w w' : world) (sample : Z) :
    reachable w -> fire sample w = Returned tt w' -> reachable w'
| reach_pass (w w' : world) :
    reachable w -> printValues_body w = Returned tt w' -> reachable w'
| reach_block (w w' : world) :
    reachable w -> printValues_body w = Blocked w' -> reachable w'.

(** More predicates on logs. *)
Definition is_yield (e : event) : bool :=
  match e with EportYIELD_FROM_ISR => true | _ => false end.

Definition is_give (e : event) : bool :=
  match e with ExSemaphoreGiveFromISR _ => true | _ => false end.

(** Rounds in which the alarm expires several times before the consumer
    runs: a burst is the samples of the earlier expiries and the sample of
    the last one. *)
Fixpoint serve_bursts (bursts : list (list Z * Z)) (w : world) : outcome unit :=
  match bursts with
  | [] => Blocked w
  | (earlier, last_sample) :: rest =>
      match fires (earlier ++ [last_sample]) w with
      | Returned _ w1 =>
          match printValues None 2 w1 with
          | Blocked w2 => serve_bursts rest w2
          | other => other
          end
      | other => other
      end
  end.

(** The number of thousandths the printed line shows for a raw sample. *)
Definition millivolts (raw : Z) : Z := round3 (to_Q (volt_of raw)).

(** What is checked of two neighbouring readings: the float grows, and the
    printed thousandths grow by zero or one. *)
Definition step_ok (raw : Z) : bool :=
  let q0 := to_Q (volt_of raw) in
  let q1 := to_Q (volt_of (raw + 1)) in
  let d := round3 q1 - round3 q0 in
  negb (Qle_bool q1 q0) && (0 <=? d) && (d <=? 1).

(* ===================================================================== *)
(** ** Basic facts *)

Lemma forall_bits_spec (k : nat) :
  forall (base : Z) (p : Z -> bool),
    forall_bits k base p = true ->
    forall z, base * 2 ^ Z.of_nat k <= z < (base + 1) * 2 ^ Z.of_nat k -> p z = true.
Proof.
  induction k as [|k IH]; intros base p Hall z Hz.
  - simpl in *. replace z with base by lia. exact Hall.
  - cbn [forall_bits] in Hall. apply andb_true_iff in Hall as [Hlo Hhi].
    rewrite Nat2Z.inj_succ, Z.pow_succ_r in Hz by lia.
    destruct (Z_lt_le_dec z ((2 * base + 1) * 2 ^ Z.of_nat k)) as [Hlt|Hge].
    + apply (IH (2 * base) p Hlo). lia.
    + apply (IH (2 * base + 1) p Hhi). lia.
Qed.

Lemma lnot_level (b : bool) :
  negb (to_uint8 (lnot (if b then 1 else 0)) =? 0) = negb b.
Proof. destruct b; reflexivity. Qed.

(** The handler, run from a world where the semaphore exists. *)
Lemma onTimer_run (w : world) (s : semaphore) :
  bin_sem w = Some s ->
  let level := if gpio w pinLed then 1 else 0 in
  let raw := adc w pinAdc in
  let woken := negb (signaled s) && waiting s in
  exists w',
    onTimer w = Returned tt w' /\
    log w' = log w ++
             [ EdigitalRead pinLed level;
               EdigitalWrite pinLed (lnot level);
               EanalogRead pinAdc raw;
               Estore_val (to_uint16 raw);
               ExSemaphoreGiveFromISR woken ] ++
             (if woken then [EportYIELD_FROM_ISR] else []) /\
    val w' = to_uint16 raw /\
    gpio w' pinLed = negb (gpio w pinLed) /\
    (exists s', bin_sem w' = Some s' /\ signaled s' = true) /\
    (signaled s = true -> bin_sem w' = bin_sem w) /\
    timer w' = timer w /\ adc w' = adc w /\ heap_ok w' = heap_ok w /\
    tasks w' = tasks w /\ alarm_on w' = alarm_on w.
Proof.
  intros Hs level raw woken.
  unfold onTimer, bind, digitalRead, digitalWrite, analogRead, store_val,
    xSemaphoreGiveFromISR, portYIELD_FROM_ISR, ret. cbn.
  rewrite Hs.
  destruct s as [sig wt]; subst woken; cbn.
  destruct sig; cbn.
  - eexists; repeat split; cbn; try reflexivity.
    + rewrite <- !app_assoc. reflexivity.
    + apply lnot_level.
    + eexists; split; [exact Hs | reflexivity].
    + intros _. congruence.
  - rewrite orb_false_r. destruct wt; cbn.
    + eexists; repeat split; cbn; try reflexivity.
      * rewrite <- !app_assoc. reflexivity.
      * apply lnot_level.
      * eexists; split; reflexivity.
      * discriminate.
    + eexists; repeat split; cbn; try reflexivity.
      * rewrite <- !app_assoc. reflexivity.
      * apply lnot_level.
      * eexists; split; reflexivity.
      * discriminate.
Qed.

(** Bring-up when the kernel can allocate the semaphore. *)
Lemma setup_run_ok (w : world) :
  heap_ok w = true ->
  exists w',
    setup w = Returned tt w' /\
    log w' = log w ++ bring_up_log /\
    bin_sem w' = Some (mkSem false false) /\
    tasks w' = tasks w ++ [consumer_task] /\
    timer w' = Some 0 /\
    alarm_on w' = true /\
    val w' = val w /\ gpio w' = gpio w /\ adc w' = adc w /\ heap_ok w' = heap_ok w.
Proof.
  intros Hheap.
  unfold setup, bind, Serial_begin, vTaskDelay, Serial_println,
    xSemaphoreCreateBinary, store_bin_sem, bin_sem_is_NULL, ESP_restart,
    xTaskCreatePinnedToCore, pinMode, timerBegin, store_timer, load_timer,
    timerAttachInterrupt, timerAlarmWrite, timerAlarmEnable, ret.
  cbn. rewrite Hheap. cbn.
  eexists; repeat split; cbn; try reflexivity.
  - rewrite <- !app_assoc. reflexivity.
  - exact Hheap.
Qed.

(** Bring-up when the kernel cannot allocate the semaphore. *)
Lemma setup_run_fatal (w : world) :
  heap_ok w = false ->
  exists w',
    setup w = Restarted w' /\
    log w' = log w ++ fatal_log /\
    bin_sem w' = None /\
    tasks w' = tasks w /\
    timer w' = timer w /\
    alarm_on w' = alarm_on w /\
    val w' = val w /\ gpio w' = gpio w /\ adc w' = adc w /\ heap_ok w' = heap_ok w.
Proof.
  intros Hheap.
  unfold setup, bind, Serial_begin, vTaskDelay, Serial_println,
    xSemaphoreCreateBinary, store_bin_sem, bin_sem_is_NULL, ESP_restart, ret.
  cbn. rewrite Hheap. cbn.
  eexists; repeat split; cbn; try reflexivity.
  - rewrite <- !app_assoc. reflexivity.
  - exact Hheap.
Qed.

(** One pass of the consumer's loop body when the semaphore is signaled. *)
Lemma printValues_body_signaled (w : world) (s : semaphore) :
  bin_sem w = Some s -> signaled s = true ->
  exists w',
    printValues_body w = Returned tt w' /\
    log w' = log w ++
             [ ExSemaphoreTake portMAX_DELAY;
               Eload_val (val w);
               ESerial_println (line_of (val w)) ] /\
    bin_sem w' = Some (mkSem false false) /\
    val w' = val w /\ gpio w' = gpio w /\ adc w' = adc w /\
    timer w' = timer w /\ heap_ok w' = heap_ok w /\
    tasks w' = tasks w /\ alarm_on w' = alarm_on w.
Proof.
  intros Hs Hsig.
  unfold printValues_body, bind, xSemaphoreTake, load_val,
    Serial_println_float, Serial_println.
  rewrite Hs, Hsig. cbn [val log bin_sem set_bin_sem record].
  eexists; repeat split; cbn [val log bin_sem set_bin_sem record gpio adc timer heap_ok tasks alarm_on];
    try reflexivity.
  rewrite <- !app_assoc. reflexivity.
Qed.

(** One pass of the body when the semaphore is not signaled: the task
    blocks, having logged nothing. *)
Lemma printValues_body_unsignaled (w : world) (s : semaphore) :
  bin_sem w = Some s -> signaled s = false ->
  printValues_body w = Blocked (set_bin_sem (Some (mkSem false true)) w).
Proof.
  intros Hs Hsig.
  unfold printValues_body, bind, xSemaphoreTake.
  rewrite Hs, Hsig. reflexivity.
Qed.

(** [while (1)] has no exit: whatever the fuel, the loop does not return. *)
Lemma while_1_no_return (body : M unit) (fuel : nat) :
  forall w a w', while_1 fuel body w <> Returned a w'.
Proof.
  induction fuel as [|n IH]; intros w a w'; cbn [while_1].
  - discriminate.
  - destruct (body w) as [u w1|w1|w1|w1|w1]; try discriminate. apply IH.
Qed.

(** The loop of the consumer, started on a signaled semaphore: one pass,
    then the task blocks at the head of the next pass. *)
Lemma printValues_wakes_once (parameters : option Z) (n : nat) (w : world) (s : semaphore) :
  bin_sem w = Some s -> signaled s = true ->
  exists w',
    printValues parameters (S (S n)) w = Blocked w' /\
    log w' = log w ++
             [ ExSemaphoreTake portMAX_DELAY;
               Eload_val (val w);
               ESerial_println (line_of (val w)) ] /\
    bin_sem w' = Some (mkSem false true) /\
    val w' = val w /\ gpio w' = gpio w /\ adc w' = adc w /\
    timer w' = timer w /\ heap_ok w' = heap_ok w /\
    tasks w' = tasks w /\ alarm_on w' = alarm_on w.
Proof.
  intros Hs Hsig.
  destruct (printValues_body_signaled w s Hs Hsig)
    as (w1 & Hrun & Hlog & Hsem & Hval & Hgpio & Hadc & Htimer & Hheap & Htasks & Halarm).
  unfold printValues. cbn [while_1]. rewrite Hrun.
  rewrite (printValues_body_unsignaled w1 _ Hsem eq_refl).
  eexists; split; [reflexivity|].
  cbn [set_bin_sem log bin_sem val gpio adc timer heap_ok tasks alarm_on].
  repeat split; assumption.
Qed.

(** The loop started on an unsignaled semaphore blocks at once. *)
Lemma printValues_blocks (parameters : option Z) (n : nat) (w : world) (s : semaphore) :
  bin_sem w = Some s -> signaled s = false ->
  printValues parameters (S n) w = Blocked (set_bin_sem (Some (mkSem false true)) w).
Proof.
  intros Hs Hsig. unfold printValues. cbn [while_1].
  rewrite (printValues_body_unsignaled w s Hs Hsig). reflexivity.
Qed.

(** One expiry of the alarm. *)
Lemma fire_run (sample : Z) (w : world) (s : semaphore) :
  bin_sem w = Some s ->
  exists w' s',
    fire sample w = Returned tt w' /\
    val w' = to_uint16 sample /\
    bin_sem w' = Some s' /\ signaled s' = true /\
    (signaled s = true -> bin_sem w' = bin_sem w) /\
    gpio w' pinLed = negb (gpio w pinLed) /\
    filter is_println (log w') = filter is_println (log w) /\
    timer w' = timer w /\ heap_ok w' = heap_ok w /\
    tasks w' = tasks w /\ alarm_on w' = alarm_on w.
Proof.
  intros Hs. unfold fire.
  set (w0 := set_adc (fun p => if p =? pinAdc then sample else adc w p) w).
  destruct (onTimer_run w0 s Hs)
    as (w' & Hrun & Hlog & Hval & Hgpio & (s' & Hs' & Hsig') & Hsame & Htimer & _ & Hheap & Htasks & Halarm).
  exists w', s'. split; [exact Hrun|].
  split; [rewrite Hval; unfold w0; cbn [adc set_adc]; rewrite Z.eqb_refl; reflexivity|].
  split; [exact Hs'|]. split; [exact Hsig'|]. split; [exact Hsame|].
  split; [exact Hgpio|].
  split; [|repeat split; assumption].
  rewrite Hlog. cbn [log w0 set_adc].
  rewrite !filter_app. cbn.
  destruct (negb (signaled s) && waiting s); cbn; rewrite app_nil_r; reflexivity.
Qed.

(** Several expiries in a row, ending with [sample]. *)
Lemma fires_run (samples : list Z) :
  forall (sample : Z) (w : world) (s : semaphore),
    bin_sem w = Some s ->
    exists w' s',
      fires (samples ++ [sample]) w = Returned tt w' /\
      val w' = to_uint16 sample /\
      bin_sem w' = Some s' /\ signaled s' = true /\
      filter is_println (log w') = filter is_println (log w).
Proof.
  induction samples as [|x rest IH]; intros sample w s Hs; cbn [app fires]; unfold bind.
  - destruct (fire_run sample w s Hs)
      as (w' & s' & Hrun & Hval & Hs' & Hsig & _ & _ & Hlog & _).
    rewrite Hrun. exists w', s'. cbn. auto.
  - destruct (fire_run x w s Hs)
      as (w1 & s1 & Hrun & _ & Hs1 & _ & _ & _ & Hlog1 & _).
    rewrite Hrun.
    destruct (IH sample w1 s1 Hs1) as (w' & s' & Hrest & Hval & Hs' & Hsig & Hlog).
    exists w', s'. repeat split; try assumption. congruence.
Qed.

(** Any number of rounds: the consumer is blocked again after each one and
    has printed one line per round, the line of that round's sample. *)
Lemma serve_run (samples : list Z) :
  forall (w : world) (s : semaphore),
    bin_sem w = Some s ->
    exists w',
      serve samples w = Blocked w' /\
      filter is_println (log w') =
        filter is_println (log w) ++
        map (fun sample => ESerial_println (line_of (to_uint16 sample))) samples /\
      (exists s', bin_sem w' = Some s').
Proof.
  induction samples as [|x rest IH]; intros w s Hs; cbn [serve map].
  - exists w. rewrite app_nil_r. eauto.
  - destruct (fire_run x w s Hs)
      as (w1 & s1 & Hrun & Hval & Hs1 & Hsig1 & _ & _ & Hlog1 & _).
    rewrite Hrun.
    destruct (printValues_wakes_once None 0 w1 s1 Hs1 Hsig1)
      as (w2 & Hloop & Hlog2 & Hs2 & _).
    rewrite Hloop.
    destruct (IH w2 _ Hs2) as (w' & Hserve & Hlog & Hs').
    exists w'. split; [exact Hserve|]. split; [|exact Hs'].
    rewrite Hlog, Hlog2, filter_app, Hlog1, Hval. cbn.
    rewrite <- app_assoc. reflexivity.
Qed.

(** The literal [3.3] is the double nearest to 33/10: the correctly rounded
    quotient of the two integers. *)
Lemma lit_3_3_nearest : lit_3_3 = f64_div (f64_of_Z 33) (f64_of_Z 10).
Proof. reflexivity. Qed.

Lemma same_float_eq (x y : spec_float) : same_float x y = true -> x = y.
Proof.
  destruct x as [a|a| |a m e], y as [b|b| |b n f]; cbn; try discriminate.
  - intros H. apply eqb_prop in H. congruence.
  - intros H. apply andb_true_iff in H as [H He].
    apply andb_true_iff in H as [Hs Hm].
    apply eqb_prop in Hs. apply Pos.eqb_eq in Hm. apply Z.eqb_eq in He.
    congruence.
Qed.

(** The checks hold of every reading of a 12-bit converter, and those of
    [sample_ok] hold of the value 4096 too. *)
Lemma readings_checked : forall_bits 12 0 reading_ok = true.
Proof. vm_compute. reflexivity. Qed.

Lemma full_scale_checked : sample_ok 4096 = true.
Proof. vm_compute. reflexivity. Qed.

Lemma reading_ok_upto_4095 (raw : Z) :
  0 <= raw <= 4095 -> sample_ok raw = true /\ below_full_scale raw = true.
Proof.
  intros Hraw. apply andb_true_iff.
  change (reading_ok raw = true).
  apply (forall_bits_spec 12 0 reading_ok readings_checked). cbn. lia.
Qed.

Lemma sample_ok_upto_4096 (raw : Z) : 0 <= raw <= 4096 -> sample_ok raw = true.
Proof.
  intros Hraw. destruct (Z.eq_dec raw 4096) as [->|Hne].
  - exact full_scale_checked.
  - apply reading_ok_upto_4095. lia.
Qed.

Lemma exact_volt_below (raw : Z) : raw < 4096 -> (exact_volt raw < 33 # 10)%Q.
Proof.
  intros Hraw. unfold exact_volt, Qlt, Qdiv, Qmult, Qinv, inject_Z. cbn. lia.
Qed.

(** Once bring-up has completed, the semaphore and the consumer task exist
    and the alarm is armed, and this stays so: the handler never meets a
    NULL handle. *)
Lemma reachable_invariant (w : world) :
  reachable w ->
  (exists s, bin_sem w = Some s) /\ In consumer_task (tasks w) /\ alarm_on w = true.
Proof.
  induction 1 as [w w' Hrun | w w' sample _ IH Hrun | w w' _ IH Hrun | w w' _ IH Hrun].
  - destruct (heap_ok w) eqn:Hheap.
    + destruct (setup_run_ok w Hheap) as (w1 & Hrun1 & _ & Hsem & Htasks & _ & Halarm & _).
      rewrite Hrun in Hrun1. injection Hrun1 as <-.
      split; [eauto|]. split; [|exact Halarm].
      rewrite Htasks. apply in_or_app. right. left. reflexivity.
    + destruct (setup_run_fatal w Hheap) as (w1 & Hrun1 & _). congruence.
  - destruct IH as ((s & Hs) & Htask & Halarm).
    destruct (fire_run sample w s Hs)
      as (w1 & s1 & Hrun1 & _ & Hs1 & _ & _ & _ & _ & _ & _ & Htasks & Halarm1).
    rewrite Hrun in Hrun1. injection Hrun1 as <-.
    split; [eauto|]. split; congruence.
  - destruct IH as ((s & Hs) & Htask & Halarm).
    destruct (signaled s) eqn:Hsig.
    + destruct (printValues_body_signaled w s Hs Hsig)
        as (w1 & Hrun1 & _ & Hs1 & _ & _ & _ & _ & _ & Htasks & Halarm1).
      rewrite Hrun in Hrun1. injection Hrun1 as <-.
      split; [eauto|]. split; congruence.
    + rewrite (printValues_body_unsignaled w s Hs Hsig) in Hrun. discriminate.
  - destruct IH as ((s & Hs) & Htask & Halarm).
    destruct (signaled s) eqn:Hsig.
    + destruct (printValues_body_signaled w s Hs Hsig) as (w1 & Hrun1 & _). congruence.
    + rewrite (printValues_body_unsignaled w s Hs Hsig) in Hrun.
      injection Hrun as <-. cbn. split; [eauto|]. split; assumption.
Qed.

Lemma ready_reachable : reachable ready.
Proof. apply (reach_setup (boot true)). reflexivity. Qed.

(* ===================================================================== *)
(** ** The timer interrupt handler *)

(** C1. Every invocation of [onTimer] in a world where the semaphore exists
    returns, and what it adds to the log is, in this order: the read of the
    indicator pin, the write of the negated level to it, one analog read of
    the monitored channel, the store of that reading into [val], the give of
    the semaphore with the flag telling whether a blocked consumer became
    runnable, and a yield request exactly when that flag is set.  [val]
    holds the new reading afterwards, and the store comes before the give. *)
Theorem onTimer_steps_in_order (w : world) (s : semaphore) :
  bin_sem w = Some s ->
  let level := if gpio w pinLed then 1 else 0 in
  let raw := adc w pinAdc in
  let woken := negb (signaled s) && waiting s in
  exists w',
    onTimer w = Returned tt w' /\
    log w' = log w ++
             [ EdigitalRead pinLed level;
               EdigitalWrite pinLed (lnot level);
               EanalogRead pinAdc raw;
               Estore_val (to_uint16 raw);
               ExSemaphoreGiveFromISR woken ] ++
             (if woken then [EportYIELD_FROM_ISR] else []) /\
    val w' = to_uint16 raw /\
    (exists before between after,
        log w' = log w ++ before ++ Estore_val (to_uint16 raw) :: between ++
                 ExSemaphoreGiveFromISR woken :: after).
Proof.
  intros Hs level raw woken.
  destruct (onTimer_run w s Hs) as (w' & Hrun & Hlog & Hval & _).
  exists w'. split; [exact Hrun|]. split; [exact Hlog|]. split; [exact Hval|].
  exists [EdigitalRead pinLed level; EdigitalWrite pinLed (lnot level);
          EanalogRead pinAdc raw], [],
         (if woken then [EportYIELD_FROM_ISR] else []).
  exact Hlog.
Qed.

Lemma onTimer_steps_in_order_witness :
  bin_sem ready = Some (mkSem false false) /\
  exists w', onTimer ready = Returned tt w' /\ val w' = 0.
Proof.
  split; [reflexivity|].
  destruct (onTimer_steps_in_order ready (mkSem false false) eq_refl)
    as (w' & Hrun & _ & Hval & _).
  exists w'. split; [exact Hrun | exact Hval].
Defined.

(** C10. One invocation of the handler always changes the level of the
    indicator pin, and a second invocation, from any world in which the pin
    still has the level the first one left, restores the original level. *)
Theorem heartbeat_involution (w : world) (s : semaphore) :
  bin_sem w = Some s ->
  exists w1,
    onTimer w = Returned tt w1 /\
    gpio w1 pinLed = negb (gpio w pinLed) /\
    gpio w1 pinLed <> gpio w pinLed /\
    forall (v : world) (s' : semaphore),
      bin_sem v = Some s' ->
      gpio v pinLed = gpio w1 pinLed ->
      exists w2, onTimer v = Returned tt w2 /\ gpio w2 pinLed = gpio w pinLed.
Proof.
  intros Hs.
  destruct (onTimer_run w s Hs) as (w1 & Hrun & _ & _ & Hgpio & _).
  exists w1. split; [exact Hrun|]. split; [exact Hgpio|].
  split; [rewrite Hgpio; destruct (gpio w pinLed); discriminate|].
  intros v s' Hs' Hsame.
  destruct (onTimer_run v s' Hs') as (w2 & Hrun2 & _ & _ & Hgpio2 & _).
  exists w2. split; [exact Hrun2|].
  rewrite Hgpio2, Hsame, Hgpio. apply negb_involutive.
Qed.

Lemma heartbeat_involution_witness :
  bin_sem ready = Some (mkSem false false) /\
  exists w1, onTimer ready = Returned tt w1 /\ gpio w1 pinLed = true.
Proof.
  split; [reflexivity|].
  destruct (heartbeat_involution ready (mkSem false false) eq_refl)
    as (w1 & Hrun & Hgpio & _).
  exists w1. split; [exact Hrun | exact Hgpio].
Defined.

(* ===================================================================== *)
(** ** Bring-up *)

(** C3. When the semaphore can be created, [setup] returns after logging,
    in this order: the start of the serial port and the pause, the banner,
    the creation of the semaphore, the creation of the consumer task, the
    configuration of the indicator pin, and the start, attachment, setting
    and arming of the timer, the arming being last; the semaphore and the
    task then exist and the alarm is armed.  In every run of [setup],
    whatever the allocation does, no arming of the alarm comes before a
    successful creation of the semaphore and the creation of the task. *)
Theorem setup_arms_alarm_last :
  (forall w, heap_ok w = true ->
     exists w',
       setup w = Returned tt w' /\
       log w' = log w ++
                [ ESerial_begin 115200;
                  EvTaskDelay (pdMS_TO_TICKS 1000);
                  ESerial_println "";
                  ESerial_println banner;
                  ExSemaphoreCreateBinary true;
                  ExTaskCreatePinnedToCore consumer_task;
                  EpinMode pinLed OUTPUT;
                  EtimerBegin 0 timer_divider true;
                  EtimerAttachInterrupt 0 Fn_onTimer true;
                  EtimerAlarmWrite 0 timer_max_count true;
                  EtimerAlarmEnable 0 ] /\
       bin_sem w' = Some (mkSem false false) /\
       tasks w' = tasks w ++ [consumer_task] /\
       alarm_on w' = true) /\
  (forall w, exists evs,
       log (world_of (setup w)) = log w ++ evs /\
       armed_after false false evs = true /\
       (alarm_on w = false -> alarm_on (world_of (setup w)) = true ->
        bin_sem (world_of (setup w)) <> None /\
        In consumer_task (tasks (world_of (setup w))))).
Proof.
  split.
  - intros w Hheap.
    destruct (setup_run_ok w Hheap) as (w' & Hrun & Hlog & Hsem & Htasks & _ & Halarm & _).
    exists w'. repeat split; assumption.
  - intros w. destruct (heap_ok w) eqn:Hheap.
    + destruct (setup_run_ok w Hheap) as (w' & Hrun & Hlog & Hsem & Htasks & _ & Halarm & _).
      exists bring_up_log. rewrite Hrun. cbn [world_of].
      split; [exact Hlog|]. split; [reflexivity|].
      intros _ _. split; [congruence|].
      rewrite Htasks. apply in_or_app. right. left. reflexivity.
    + destruct (setup_run_fatal w Hheap) as (w' & Hrun & Hlog & _ & _ & _ & Halarm & _).
      exists fatal_log. rewrite Hrun. cbn [world_of].
      split; [exact Hlog|]. split; [reflexivity|].
      intros Hoff Hon. congruence.
Qed.

Lemma setup_arms_alarm_last_witness :
  heap_ok (boot true) = true /\
  exists w', setup (boot true) = Returned tt w' /\ alarm_on w' = true.
Proof.
  split; [reflexivity|].
  destruct setup_arms_alarm_last as [Hok _].
  destruct (Hok (boot true) eq_refl) as (w' & Hrun & _ & _ & _ & Halarm).
  exists w'. split; [exact Hrun | exact Halarm].
Defined.

(** C4. When the creation of the semaphore fails, [setup] ends in a
    restart; what it logs after the creation attempt is one diagnostic line
    and one restart, and no task creation, pin configuration or timer call;
    no task comes to exist, the timer handle and the alarm are untouched.
    When the creation succeeds, [setup] logs no diagnostic and no restart. *)
Theorem setup_fatal_path :
  (forall w, heap_ok w = false ->
     exists w',
       setup w = Restarted w' /\
       log w' = log w ++
                [ ESerial_begin 115200;
                  EvTaskDelay (pdMS_TO_TICKS 1000);
                  ESerial_println "";
                  ESerial_println banner;
                  ExSemaphoreCreateBinary false;
                  ESerial_println diagnostic;
                  EESP_restart ] /\
       List.length (filter is_diagnostic fatal_log) = 1%nat /\
       List.length (filter is_restart fatal_log) = 1%nat /\
       filter is_later_step fatal_log = [] /\
       tasks w' = tasks w /\ timer w' = timer w /\ alarm_on w' = alarm_on w) /\
  (forall w, heap_ok w = true ->
     exists w',
       setup w = Returned tt w' /\
       log w' = log w ++ bring_up_log /\
       filter is_diagnostic bring_up_log = [] /\
       filter is_restart bring_up_log = []).
Proof.
  split; intros w Hheap.
  - destruct (setup_run_fatal w Hheap)
      as (w' & Hrun & Hlog & _ & Htasks & Htimer & Halarm & _).
    exists w'. repeat split; try assumption.
  - destruct (setup_run_ok w Hheap) as (w' & Hrun & Hlog & _).
    exists w'. repeat split; assumption.
Qed.

Lemma setup_fatal_path_witness :
  heap_ok (boot false) = false /\
  exists w', setup (boot false) = Restarted w' /\ tasks w' = [].
Proof.
  split; [reflexivity|].
  destruct setup_fatal_path as [Hfatal _].
  destruct (Hfatal (boot false) eq_refl) as (w' & Hrun & _ & _ & _ & _ & Htasks & _).
  exists w'. split; [exact Hrun | exact Htasks].
Defined.

(** C7. The one task [setup] creates runs [printValues], is pinned to the
    core [APP_CPU_NUM], receives no parameters (NULL) and has a priority
    strictly above that of the task running [setup]. *)
Theorem consumer_task_placement (w : world) :
  heap_ok w = true ->
  exists w' t,
    setup w = Returned tt w' /\
    tasks w' = tasks w ++ [t] /\
    filter (fun e => match e with ExTaskCreatePinnedToCore _ => true | _ => false end)
           bring_up_log = [ExTaskCreatePinnedToCore t] /\
    t_entry t = Fn_printValues /\
    t_core t = APP_CPU_NUM /\
    t_parameters t = None /\
    setup_task_priority < t_priority t.
Proof.
  intros Hheap.
  destruct (setup_run_ok w Hheap) as (w' & Hrun & _ & _ & Htasks & _).
  exists w', consumer_task. repeat split; try assumption.
Qed.

Lemma consumer_task_placement_witness :
  heap_ok (boot true) = true /\
  exists w' t, setup (boot true) = Returned tt w' /\ tasks w' = [t] /\ t_priority t = 2.
Proof.
  split; [reflexivity|].
  destruct (consumer_task_placement (boot true) eq_refl)
    as (w' & t & Hrun & Htasks & Hlog & _).
  exists w', t. split; [exact Hrun|]. split; [exact Htasks|].
  injection Hlog as <-. reflexivity.
Defined.

(** C8. An invocation of [loop] returns at once in the world it was called
    in: no global, no collaborator and no log entry changes. *)
Theorem loop_is_idle (w : world) : loop w = Returned tt w.
Proof. reflexivity. Qed.

(* ===================================================================== *)
(** ** The consumer task *)

(** C5. [printValues] never returns, whatever the fuel.  Started on a
    signaled semaphore it takes it with [portMAX_DELAY], loads [val], prints
    the one line of that value, changes nothing else, and blocks at the take
    of the next pass.  Started on an unsignaled semaphore it blocks at once,
    with nothing logged: the take does not time out.  Over any number of
    rounds of the alarm it prints one line per round and is blocked again. *)
Theorem printValues_loops_forever :
  (forall parameters fuel w a w', printValues parameters fuel w <> Returned a w') /\
  (forall parameters n w s,
     bin_sem w = Some s -> signaled s = true ->
     exists w',
       printValues parameters (S (S n)) w = Blocked w' /\
       log w' = log w ++
                [ ExSemaphoreTake portMAX_DELAY;
                  Eload_val (val w);
                  ESerial_println (line_of (val w)) ] /\
       bin_sem w' = Some (mkSem false true) /\
       val w' = val w /\ gpio w' = gpio w /\ adc w' = adc w /\
       timer w' = timer w /\ heap_ok w' = heap_ok w /\
       tasks w' = tasks w /\ alarm_on w' = alarm_on w) /\
  (forall parameters n w s,
     bin_sem w = Some s -> signaled s = false ->
     printValues parameters (S n) w = Blocked (set_bin_sem (Some (mkSem false true)) w)) /\
  (forall samples w s,
     bin_sem w = Some s ->
     exists w',
       serve samples w = Blocked w' /\
       filter is_println (log w') =
         filter is_println (log w) ++
         map (fun sample => ESerial_println (line_of (to_uint16 sample))) samples).
Proof.
  split; [|split; [|split]].
  - intros parameters fuel. unfold printValues. apply while_1_no_return.
  - intros parameters n w s Hs Hsig. exact (printValues_wakes_once parameters n w s Hs Hsig).
  - intros parameters n w s Hs Hsig. exact (printValues_blocks parameters n w s Hs Hsig).
  - intros samples w s Hs.
    destruct (serve_run samples w s Hs) as (w' & Hrun & Hlog & _).
    exists w'. split; assumption.
Qed.

Lemma printValues_loops_forever_witness :
  bin_sem ready = Some (mkSem false false) /\
  exists w',
    serve [0; 4095] ready = Blocked w' /\
    filter is_println (log w') =
      [ ESerial_println ""; ESerial_println banner;
        ESerial_println "0.000"; ESerial_println "3.299" ].
Proof.
  split; [reflexivity|].
  destruct printValues_loops_forever as (_ & _ & _ & Hserve).
  destruct (Hserve [0; 4095] ready (mkSem false false) eq_refl) as (w' & Hrun & Hlog).
  exists w'. split; [exact Hrun | exact Hlog].
Defined.

(** C6. A give on an already signaled semaphore returns with the semaphore,
    the flag and the sample slot as they were.  After any number of
    consecutive expiries of the alarm with no take in between, the consumer's
    loop makes exactly one pass, in which it loads and prints the most recent
    sample, and then blocks. *)
Theorem signal_coalescing :
  (forall w s flag,
     bin_sem w = Some s -> signaled s = true ->
     exists w',
       xSemaphoreGiveFromISR flag w = Returned flag w' /\
       bin_sem w' = bin_sem w /\ val w' = val w) /\
  (forall samples sample w s parameters n,
     bin_sem w = Some s ->
     exists w1 w2,
       fires (samples ++ [sample]) w = Returned tt w1 /\
       printValues parameters (S (S n)) w1 = Blocked w2 /\
       log w2 = log w1 ++
                [ ExSemaphoreTake portMAX_DELAY;
                  Eload_val (to_uint16 sample);
                  ESerial_println (line_of (to_uint16 sample)) ]).
Proof.
  split.
  - intros w s flag Hs Hsig. unfold xSemaphoreGiveFromISR. rewrite Hs, Hsig.
    eexists. split; [reflexivity|]. split; [cbn; congruence | reflexivity].
  - intros samples sample w s parameters n Hs.
    destruct (fires_run samples sample w s Hs) as (w1 & s1 & Hrun & Hval & Hs1 & Hsig1 & _).
    destruct (printValues_wakes_once parameters n w1 s1 Hs1 Hsig1) as (w2 & Hloop & Hlog & _).
    exists w1, w2. split; [exact Hrun|]. split; [exact Hloop|].
    rewrite Hlog, Hval. reflexivity.
Qed.

Lemma signal_coalescing_witness :
  bin_sem ready = Some (mkSem false false) /\
  exists w1 w2,
    fires [100; 200; 4095] ready = Returned tt w1 /\
    printValues None 5 w1 = Blocked w2 /\
    log w2 = log w1 ++
             [ ExSemaphoreTake portMAX_DELAY; Eload_val 4095; ESerial_println "3.299" ].
Proof.
  split; [reflexivity|].
  destruct signal_coalescing as (_ & Hfires).
  destruct (Hfires [100; 200] 4095 ready (mkSem false false) None 3%nat eq_refl)
    as (w1 & w2 & Hrun & Hloop & Hlog).
  exists w1, w2. split; [exact Hrun|]. split; [exact Hloop | exact Hlog].
Defined.

(* ===================================================================== *)
(** ** The conversion to volts *)

(** C2. For every raw sample from 0 to 4096, the value the consumer computes
    is the binary32 float nearest to the exact [raw * 3.3 / 4096], hence
    within a relative 2^-24 of it; the line it prints is made of digits, a
    point and exactly three digits, and is that float rounded to three
    decimals.  Raw 0 prints as 0.000 and raw 4096 as 3.300.  The line printed
    in a pass of the loop is the line of the value loaded from [val]. *)
Theorem conversion_correctness :
  (forall raw, 0 <= raw <= 4096 ->
     volt_of raw = nearest_f32 raw /\
     (Qabs (to_Q (volt_of raw) - exact_volt raw) <= exact_volt raw * (1 # 16777216))%Q /\
     three_fraction_digits (line_of raw) = true /\
     line_of raw = decimal3 (to_Q (volt_of raw))) /\
  line_of 0 = "0.000"%string /\
  line_of 4096 = "3.300"%string /\
  (forall w s,
     bin_sem w = Some s -> signaled s = true ->
     exists w',
       printValues_body w = Returned tt w' /\
       log w' = log w ++
                [ ExSemaphoreTake portMAX_DELAY;
                  Eload_val (val w);
                  ESerial_println (printFloat (f64_of_f32 (volt_of (val w))) 3) ]).
Proof.
  split; [|split; [|split]].
  - intros raw Hraw.
    pose proof (sample_ok_upto_4096 raw Hraw) as Hok.
    unfold sample_ok, sample_checks in Hok.
    apply andb_true_iff in Hok as [Hok Htext].
    apply andb_true_iff in Hok as [Hok Hdigits].
    apply andb_true_iff in Hok as [Hnear Hclose].
    split; [exact (same_float_eq _ _ Hnear)|].
    split; [apply Qle_bool_iff; exact Hclose|].
    split; [exact Hdigits|].
    apply String.eqb_eq. exact Htext.
  - vm_compute. reflexivity.
  - vm_compute. reflexivity.
  - intros w s Hs Hsig.
    destruct (printValues_body_signaled w s Hs Hsig) as (w' & Hrun & Hlog & _).
    exists w'. split; assumption.
Qed.

Lemma conversion_correctness_witness :
  0 <= 2048 <= 4096 /\
  volt_of 2048 = nearest_f32 2048 /\
  line_of 2048 = "1.650"%string.
Proof.
  split; [lia|].
  destruct conversion_correctness as (Hall & _).
  destruct (Hall 2048 ltac:(lia)) as (Hnear & _ & _ & Hline).
  split; [exact Hnear|].
  rewrite Hline. vm_compute. reflexivity.
Defined.

(** C9. For every raw sample the 12-bit converter can produce, 0 to 4095,
    the exact [raw * 3.3 / 4096] and the float the consumer computes are both
    strictly below 3.3, the float is strictly below the one computed for
    4096, and the printed line is never 3.300. *)
Theorem full_scale_never_reached (raw : Z) :
  0 <= raw <= 4095 ->
  (exact_volt raw < 33 # 10)%Q /\
  (to_Q (volt_of raw) < 33 # 10)%Q /\
  SFltb (volt_of raw) (volt_of 4096) = true /\
  line_of raw <> "3.300"%string.
Proof.
  intros Hraw.
  split; [apply exact_volt_below; lia|].
  destruct (reading_ok_upto_4095 raw Hraw) as [_ Hok].
  unfold below_full_scale, below_checks in Hok.
  apply andb_true_iff in Hok as [Hok Htext].
  apply andb_true_iff in Hok as [Hq Hlt].
  split.
  - apply Qnot_le_lt. intros Hle. apply Qle_bool_iff in Hle.
    rewrite Hle in Hq. discriminate.
  - split; [exact Hlt|].
    intros Heq. rewrite Heq in Htext. discriminate.
Qed.

Lemma full_scale_never_reached_witness :
  0 <= 4095 <= 4095 /\ line_of 4095 <> "3.300"%string.
Proof.
  split; [lia|].
  destruct (full_scale_never_reached 4095 ltac:(lia)) as (_ & _ & _ & Hline).
  exact Hline.
Defined.

(* ===================================================================== *)
(** ** Bursts of expiries, steady state and safety *)

(** One expiry of the alarm, with what it logs. *)
Lemma fire_log (sample : Z) (w : world) (s : semaphore) :
  bin_sem w = Some s ->
  let level := if gpio w pinLed then 1 else 0 in
  let woken := negb (signaled s) && waiting s in
  exists w' s',
    fire sample w = Returned tt w' /\
    log w' = log w ++
             [ EdigitalRead pinLed level;
               EdigitalWrite pinLed (lnot level);
               EanalogRead pinAdc sample;
               Estore_val (to_uint16 sample);
               ExSemaphoreGiveFromISR woken ] ++
             (if woken then [EportYIELD_FROM_ISR] else []) /\
    val w' = to_uint16 sample /\
    bin_sem w' = Some s' /\ signaled s' = true /\
    gpio w' pinLed = negb (gpio w pinLed).
Proof.
  intros Hs level woken. unfold fire.
  set (w0 := set_adc (fun p => if p =? pinAdc then sample else adc w p) w).
  destruct (onTimer_run w0 s Hs)
    as (w' & Hrun & Hlog & Hval & Hgpio & (s' & Hs' & Hsig') & _).
  assert (Hadc : adc w0 pinAdc = sample).
  { unfold w0. cbn [adc set_adc]. rewrite Z.eqb_refl. reflexivity. }
  rewrite Hadc in Hlog, Hval.
  exists w', s'. split; [exact Hrun|]. split; [exact Hlog|].
  split; [exact Hval|]. split; [exact Hs'|]. split; [exact Hsig'|]. exact Hgpio.
Qed.

(** Any burst of expiries, possibly empty. *)
Lemma fires_general (samples : list Z) :
  forall (w : world) (s : semaphore),
    bin_sem w = Some s ->
    exists w' s',
      fires samples w = Returned tt w' /\
      bin_sem w' = Some s' /\
      gpio w' pinLed = xorb (gpio w pinLed) (Nat.odd (List.length samples)) /\
      filter is_println (log w') = filter is_println (log w) /\
      List.length (filter is_give (log w')) =
        (List.length (filter is_give (log w)) + List.length samples)%nat /\
      List.length (filter is_yield (log w')) =
        (List.length (filter is_yield (log w)) +
         match samples with
         | [] => 0
         | _ :: _ => if negb (signaled s) && waiting s then 1 else 0
         end)%nat /\
      timer w' = timer w /\ tasks w' = tasks w /\ alarm_on w' = alarm_on w.
Proof.
  induction samples as [|x rest IH]; intros w s Hs.
  - exists w, s. cbn [fires ret List.length Nat.odd].
    rewrite xorb_false_r, !Nat.add_0_r. repeat split; assumption.
  - cbn [fires]. unfold bind.
    destruct (fire_log x w s Hs) as (w1 & s1 & Hrun & Hlog1 & _ & Hs1 & Hsig1 & Hgpio1).
    destruct (fire_run x w s Hs)
      as (w1' & _ & Hrun' & _ & _ & _ & _ & _ & Hpr1 & Htimer1 & _ & Htasks1 & Halarm1).
    rewrite Hrun in Hrun'. injection Hrun' as <-.
    rewrite Hrun.
    destruct (IH w1 s1 Hs1)
      as (w' & s' & Hrest & Hs' & Hgpio & Hpr & Hgive & Hyield & Htimer & Htasks & Halarm).
    exists w', s'. split; [exact Hrest|]. split; [exact Hs'|].
    split.
    { rewrite Hgpio, Hgpio1. cbn [List.length]. rewrite Nat.odd_succ, <- Nat.negb_odd.
      destruct (gpio w pinLed), (Nat.odd (List.length rest)); reflexivity. }
    split; [congruence|].
    split.
    { rewrite Hgive, Hlog1, !filter_app, !length_app. cbn [List.length].
      destruct (negb (signaled s) && waiting s); cbn; lia. }
    split.
    { rewrite Hyield, Hlog1, !filter_app, !length_app.
      rewrite Hsig1. cbn [negb andb].
      destruct rest; destruct (negb (signaled s) && waiting s); cbn; lia. }
    repeat split; congruence.
Qed.

(** The checks of [step_ok] hold of every reading of a 12-bit converter. *)
Lemma steps_checked : forall_bits 12 0 step_ok = true.
Proof. vm_compute. reflexivity. Qed.

Lemma step_ok_upto_4095 (raw : Z) :
  0 <= raw <= 4095 ->
  (to_Q (volt_of raw) < to_Q (volt_of (raw + 1)))%Q /\
  0 <= millivolts (raw + 1) - millivolts raw <= 1.
Proof.
  intros Hraw.
  assert (Hok : step_ok raw = true).
  { apply (forall_bits_spec 12 0 step_ok steps_checked). cbn. lia. }
  unfold step_ok in Hok. cbv zeta in Hok.
  apply andb_true_iff in Hok as [Hok Hhi].
  apply andb_true_iff in Hok as [Hq Hlo].
  apply Z.leb_le in Hhi, Hlo. unfold millivolts.
  split; [|lia].
  apply Qnot_le_lt. intros Hle. apply Qle_bool_iff in Hle.
  rewrite Hle in Hq. discriminate.
Qed.

(** Readings [n] apart, [n] counted from one. *)
Lemma volt_grows (n : nat) :
  forall a, 0 <= a -> a + Z.of_nat (S n) <= 4096 ->
    (to_Q (volt_of a) < to_Q (volt_of (a + Z.of_nat (S n))))%Q.
Proof.
  induction n as [|n IH]; intros a Ha Hb.
  - change (Z.of_nat 1) with 1. apply step_ok_upto_4095. lia.
  - apply Qlt_trans with (to_Q (volt_of (a + Z.of_nat (S n)))).
    + apply IH; lia.
    + replace (a + Z.of_nat (S (S n))) with (a + Z.of_nat (S n) + 1) by lia.
      apply step_ok_upto_4095. lia.
Qed.

Lemma millivolts_grow (n : nat) :
  forall a, 0 <= a -> a + Z.of_nat n <= 4096 ->
    millivolts a <= millivolts (a + Z.of_nat n) <= millivolts a + Z.of_nat n.
Proof.
  induction n as [|n IH]; intros a Ha Hb.
  - rewrite Z.add_0_r. lia.
  - specialize (IH a Ha ltac:(lia)).
    pose proof (step_ok_upto_4095 (a + Z.of_nat n) ltac:(lia)) as [_ Hstep].
    replace (a + Z.of_nat (S n)) with (a + Z.of_nat n + 1) by lia. lia.
Qed.

(** X1. After any burst of expiries of the alarm the indicator pin has its
    original level when the number of expiries is even and the opposite
    level when it is odd. *)
Theorem heartbeat_parity (samples : list Z) (w : world) (s : semaphore) :
  bin_sem w = Some s ->
  exists w',
    fires samples w = Returned tt w' /\
    gpio w' pinLed = xorb (gpio w pinLed) (Nat.odd (List.length samples)).
Proof.
  intros Hs.
  destruct (fires_general samples w s Hs) as (w' & s' & Hrun & _ & Hgpio & _).
  exists w'. split; assumption.
Qed.

Lemma heartbeat_parity_witness :
  bin_sem ready = Some (mkSem false false) /\
  exists w', fires [7; 8; 9] ready = Returned tt w' /\ gpio w' pinLed = true.
Proof.
  split; [reflexivity|].
  destruct (heartbeat_parity [7; 8; 9] ready (mkSem false false) eq_refl)
    as (w' & Hrun & Hgpio).
  exists w'. split; [exact Hrun | exact Hgpio].
Defined.

(** X2. In a burst of expiries with no consumer step in between, the
    handler gives the semaphore once per expiry but requests a context
    switch at most once: exactly once when the consumer was blocked on an
    unsignaled semaphore at the start, and never otherwise. *)
Theorem burst_yields_at_most_once (sample : Z) (rest : list Z) (w : world) (s : semaphore) :
  bin_sem w = Some s ->
  exists w',
    fires (sample :: rest) w = Returned tt w' /\
    List.length (filter is_give (log w')) =
      (List.length (filter is_give (log w)) + S (List.length rest))%nat /\
    List.length (filter is_yield (log w')) =
      (List.length (filter is_yield (log w)) +
       if negb (signaled s) && waiting s then 1 else 0)%nat.
Proof.
  intros Hs.
  destruct (fires_general (sample :: rest) w s Hs)
    as (w' & s' & Hrun & _ & _ & _ & Hgive & Hyield & _).
  exists w'. split; [exact Hrun|]. split; [exact Hgive | exact Hyield].
Qed.

Lemma burst_yields_at_most_once_witness :
  bin_sem (set_bin_sem (Some (mkSem false true)) ready) = Some (mkSem false true) /\
  exists w',
    fires [1; 2; 3] (set_bin_sem (Some (mkSem false true)) ready) = Returned tt w' /\
    List.length (filter is_yield (log w')) = 1%nat.
Proof.
  split; [reflexivity|].
  destruct (burst_yields_at_most_once 1 [2; 3]
              (set_bin_sem (Some (mkSem false true)) ready) (mkSem false true) eq_refl)
    as (w' & Hrun & _ & Hyield).
  exists w'. split; [exact Hrun | exact Hyield].
Defined.

(** X3. The handler never prints and never touches the timer handle, the
    task list or the alarm: whatever the burst of expiries, the sequence of
    printed lines is the one before it. *)
Theorem handler_never_prints (samples : list Z) (w : world) (s : semaphore) :
  bin_sem w = Some s ->
  exists w',
    fires samples w = Returned tt w' /\
    filter is_println (log w') = filter is_println (log w) /\
    timer w' = timer w /\ tasks w' = tasks w /\ alarm_on w' = alarm_on w.
Proof.
  intros Hs.
  destruct (fires_general samples w s Hs)
    as (w' & s' & Hrun & _ & _ & Hpr & _ & _ & Htimer & Htasks & Halarm).
  exists w'. repeat split; assumption.
Qed.

Lemma handler_never_prints_witness :
  bin_sem ready = Some (mkSem false false) /\
  exists w',
    fires [5; 6] ready = Returned tt w' /\
    filter is_println (log w') = [ESerial_println ""; ESerial_println banner].
Proof.
  split; [reflexivity|].
  destruct (handler_never_prints [5; 6] ready (mkSem false false) eq_refl)
    as (w' & Hrun & Hpr & _).
  exists w'. split; [exact Hrun | exact Hpr].
Defined.

(** X4. A round of the steady state.  When the consumer is blocked on the
    semaphore and the alarm expires, the handler's give reports a woken task
    and a context switch is requested; the consumer then prints the line of
    exactly the sample stored in that expiry and blocks again, so the
    semaphore is back in the state the round started from. *)
Theorem steady_state_round (sample : Z) (w : world) :
  bin_sem w = Some (mkSem false true) ->
  let level := if gpio w pinLed then 1 else 0 in
  exists w1 w2,
    fire sample w = Returned tt w1 /\
    log w1 = log w ++
             [ EdigitalRead pinLed level;
               EdigitalWrite pinLed (lnot level);
               EanalogRead pinAdc sample;
               Estore_val (to_uint16 sample);
               ExSemaphoreGiveFromISR true;
               EportYIELD_FROM_ISR ] /\
    printValues None 2 w1 = Blocked w2 /\
    log w2 = log w1 ++
             [ ExSemaphoreTake portMAX_DELAY;
               Eload_val (to_uint16 sample);
               ESerial_println (line_of (to_uint16 sample)) ] /\
    bin_sem w2 = Some (mkSem false true) /\
    val w2 = to_uint16 sample /\
    gpio w2 pinLed = negb (gpio w pinLed).
Proof.
  intros Hs level.
  destruct (fire_log sample w _ Hs) as (w1 & s1 & Hrun & Hlog1 & Hval1 & Hs1 & Hsig1 & Hgpio1).
  destruct (printValues_wakes_once None 0 w1 s1 Hs1 Hsig1)
    as (w2 & Hloop & Hlog2 & Hs2 & Hval2 & Hgpio2 & _).
  exists w1, w2. split; [exact Hrun|]. split; [exact Hlog1|].
  split; [exact Hloop|]. split; [rewrite Hlog2, Hval1; reflexivity|].
  split; [exact Hs2|]. split; [congruence|].
  rewrite Hgpio2. exact Hgpio1.
Qed.

Lemma steady_state_round_witness :
  bin_sem (set_bin_sem (Some (mkSem false true)) ready) = Some (mkSem false true) /\
  exists w1 w2,
    fire 4095 (set_bin_sem (Some (mkSem false true)) ready) = Returned tt w1 /\
    printValues None 2 w1 = Blocked w2 /\
    val w2 = 4095.
Proof.
  split; [reflexivity|].
  destruct (steady_state_round 4095 (set_bin_sem (Some (mkSem false true)) ready) eq_refl)
    as (w1 & w2 & Hrun & _ & Hloop & _ & _ & Hval & _).
  exists w1, w2. split; [exact Hrun|]. split; [exact Hloop | exact Hval].
Defined.

(** X5. Once [setup] has returned, in every world a run can reach the
    alarm is armed and the consumer task exists, every expiry of the alarm
    makes the handler run to its end, and a pass of the consumer either
    completes or blocks: no NULL handle ever reaches the kernel and no
    restart happens. *)
Theorem steady_state_is_safe (w : world) :
  reachable w ->
  alarm_on w = true /\
  In consumer_task (tasks w) /\
  (forall sample, exists w', fire sample w = Returned tt w' /\ reachable w') /\
  (exists w',
     (printValues_body w = Returned tt w' \/ printValues_body w = Blocked w') /\
     reachable w').
Proof.
  intros Hreach.
  destruct (reachable_invariant w Hreach) as ((s & Hs) & Htask & Halarm).
  split; [exact Halarm|]. split; [exact Htask|]. split.
  - intros sample.
    destruct (fire_run sample w s Hs) as (w' & s' & Hrun & _).
    exists w'. split; [exact Hrun|].
    exact (reach_fire w w' sample Hreach Hrun).
  - destruct (signaled s) eqn:Hsig.
    + destruct (printValues_body_signaled w s Hs Hsig) as (w' & Hrun & _).
      exists w'. split; [left; exact Hrun|].
      exact (reach_pass w w' Hreach Hrun).
    + pose proof (printValues_body_unsignaled w s Hs Hsig) as Hrun.
      eexists. split; [right; exact Hrun|].
      exact (reach_block w _ Hreach Hrun).
Qed.

Lemma steady_state_is_safe_witness :
  reachable ready /\ alarm_on ready = true /\
  exists w', fire 1234 ready = Returned tt w' /\ reachable w'.
Proof.
  split; [exact ready_reachable|].
  destruct (steady_state_is_safe ready ready_reachable) as (Halarm & _ & Hfire & _).
  split; [exact Halarm|]. exact (Hfire 1234).
Defined.

(** X6. Whatever the number of expiries in each burst, the consumer prints
    exactly one line per burst, the line of the burst's last sample, and is
    blocked again after each: samples overwritten within a burst are
    dropped, and no line is printed twice. *)
Theorem bursts_print_last_sample (bursts : list (list Z * Z)) :
  forall (w : world) (s : semaphore),
    bin_sem w = Some s ->
    exists w',
      serve_bursts bursts w = Blocked w' /\
      filter is_println (log w') =
        filter is_println (log w) ++
        map (fun burst => ESerial_println (line_of (to_uint16 (snd burst)))) bursts.
Proof.
  induction bursts as [|[earlier last_sample] rest IH]; intros w s Hs; cbn [serve_bursts map snd].
  - exists w. rewrite app_nil_r. split; reflexivity.
  - destruct (fires_run earlier last_sample w s Hs)
      as (w1 & s1 & Hrun & Hval & Hs1 & Hsig1 & Hpr1).
    rewrite Hrun.
    destruct (printValues_wakes_once None 0 w1 s1 Hs1 Hsig1) as (w2 & Hloop & Hlog2 & Hs2 & _).
    rewrite Hloop.
    destruct (IH w2 _ Hs2) as (w' & Hserve & Hlog).
    exists w'. split; [exact Hserve|].
    rewrite Hlog, Hlog2, filter_app, Hpr1, Hval. cbn.
    rewrite <- app_assoc. reflexivity.
Qed.

Lemma bursts_print_last_sample_witness :
  bin_sem ready = Some (mkSem false false) /\
  exists w',
    serve_bursts [([100; 200], 0); ([], 4095)] ready = Blocked w' /\
    filter is_println (log w') =
      [ ESerial_println ""; ESerial_println banner;
        ESerial_println "0.000"; ESerial_println "3.299" ].
Proof.
  split; [reflexivity|].
  destruct (bursts_print_last_sample [([100; 200], 0); ([], 4095)] ready
              (mkSem false false) eq_refl) as (w' & Hrun & Hlog).
  exists w'. split; [exact Hrun | exact Hlog].
Defined.

(** X7. Over the readings 0 to 4096 the conversion is strictly increasing:
    a larger raw sample always gives a larger float, so distinct samples
    never convert to the same value. *)
Theorem volt_strictly_increasing (a b : Z) :
  0 <= a -> a < b -> b <= 4096 ->
  (to_Q (volt_of a) < to_Q (volt_of b))%Q /\ volt_of a <> volt_of b.
Proof.
  intros Ha Hab Hb.
  assert (Hlt : (to_Q (volt_of a) < to_Q (volt_of b))%Q).
  { replace b with (a + Z.of_nat (S (Z.to_nat (b - a - 1)))) by lia.
    apply volt_grows; lia. }
  split; [exact Hlt|].
  intros Heq. rewrite Heq in Hlt. exact (Qlt_irrefl _ Hlt).
Qed.

Lemma volt_strictly_increasing_witness :
  0 <= 1000 /\ 1000 < 3000 /\ 3000 <= 4096 /\ volt_of 1000 <> volt_of 3000.
Proof.
  split; [lia|]. split; [lia|]. split; [lia|].
  destruct (volt_strictly_increasing 1000 3000 ltac:(lia) ltac:(lia) ltac:(lia)) as [_ Hne].
  exact Hne.
Defined.

(** X8. Over the readings 0 to 4096 the printed line is the decimal writing
    of a number of thousandths that never decreases when the raw sample
    grows and grows by at most one per unit of raw sample: the display is
    monotone and skips no thousandth. *)
Theorem printed_value_monotone (a b : Z) :
  0 <= a -> a <= b -> b <= 4096 ->
  line_of a = decimal3 (to_Q (volt_of a)) /\
  line_of b = decimal3 (to_Q (volt_of b)) /\
  millivolts a <= millivolts b <= millivolts a + (b - a).
Proof.
  intros Ha Hab Hb.
  pose proof (sample_ok_upto_4096 a ltac:(lia)) as Hoka.
  pose proof (sample_ok_upto_4096 b ltac:(lia)) as Hokb.
  unfold sample_ok, sample_checks in Hoka, Hokb.
  apply andb_true_iff in Hoka as [_ Hta]. apply andb_true_iff in Hokb as [_ Htb].
  apply String.eqb_eq in Hta, Htb.
  split; [exact Hta|]. split; [exact Htb|].
  pose proof (millivolts_grow (Z.to_nat (b - a)) a Ha ltac:(lia)) as Hgrow.
  replace (a + Z.of_nat (Z.to_nat (b - a))) with b in Hgrow by lia.
  rewrite Z2Nat.id in Hgrow by lia. exact Hgrow.
Qed.

Lemma printed_value_monotone_witness :
  0 <= 0 /\ 0 <= 4096 /\ 4096 <= 4096 /\
  millivolts 0 <= millivolts 4096 <= millivolts 0 + (4096 - 0).
Proof.
  split; [lia|]. split; [lia|]. split; [lia|].
  destruct (printed_value_monotone 0 4096 ltac:(lia) ltac:(lia) ltac:(lia)) as (_ & _ & Hmv).
  exact Hmv.
Defined.
